(** * yahoo_finance.py: the data fetcher and its command-line entry point

    A shallow embedding of [src/lib/api/yahoo_finance.py].  The script has
    one function, [get_stock_data], and a [__main__] block that reads up to
    three positional arguments, calls the function and prints the result as
    JSON.  Everything the script does to the outside world goes through
    three operations: constructing an [ApiClient], calling its [call_api]
    method, and [print].  Programs are therefore modelled as finite trees
    of such events; the external client is a parameter of the interpreter,
    never of the program.

    The module prologue ([import sys], the [sys.path.append], [from
    data_api import ApiClient], [import json]) only binds the names
    [ApiClient] and [json]; they are the parameters of the development.
    [json.dumps] is a function that returns a text or raises; [print] is
    taken to succeed.  The interpreter keeps a
    log of the [call_api] calls: these are the outbound calls that are
    counted; constructing the client is not one of them. *)

From Stdlib Require Import String.
From Stdlib Require Import Ascii ZArith.
From stdpp Require Import base option list relations strings pretty gmap fin_maps.

Local Open Scope string_scope.

(** ** Python values stored in the query dictionary *)

(** The dictionary literal of [get_stock_data] holds four strings and the
    constant [True]. *)
Inductive pyval : Type :=
| PyStr (s : string)
| PyBool (b : bool).

#[global] Instance pyval_eq_dec : EqDecision pyval.
Proof. solve_decision. Defined.

(** A Python [dict] with [str] keys. *)
Abbreviation query := (gmap string pyval).

(** ** Failures *)

(** [IndexError] is the only exception the script's own expressions could
    raise (by [sys.argv[i]]); everything else comes out of the code the
    script calls and is carried unchanged: [External] out of the client,
    [Serializer] out of [json.dumps]. *)
Inductive failure (ExtFailure : Type) : Type :=
| IndexError
| External (e : ExtFailure)
| Serializer (e : ExtFailure).
Arguments IndexError {ExtFailure}.
Arguments External {ExtFailure} e.
Arguments Serializer {ExtFailure} e.

Section Fetcher.

(** The external collaborator: client handles, the responses it hands
    back and the exceptions that it and the library raise are opaque to
    the script. *)
Context {Client Response ExtFailure : Type}.

(** Whatever the collaborator's answers depend on (network, provider,
    credentials, clock): the script never reads it. *)
Context {Ext : Type}.

(** [json.dumps], the serializer bound by [import json]: the text of a
    value, or the exception raised for a value it cannot serialize. *)
Variable dumps : Response → ExtFailure + string.

(** ** Events and programs *)

Inductive event : Type → Type :=
| EApiClient : event Client
    (* ApiClient() *)
| ECallApi (client : Client) (name : string) (q : query) : event Response
    (* client.call_api(name, query=q) *)
| EPrint (line : string) : event unit.
    (* print(line) *)

Inductive prog (A : Type) : Type :=
| Ret (a : A)
| Raise (f : failure ExtFailure)
| Vis {X : Type} (e : event X) (k : X → prog A).
Arguments Ret {A} a.
Arguments Raise {A} f.
Arguments Vis {A X} e k.

Fixpoint bind {A B} (p : prog A) (f : A → prog B) : prog B :=
  match p with
  | Ret a => f a
  | Raise e => Raise e
  | Vis e k => Vis e (λ x, bind (k x) f)
  end.

#[global] Instance prog_ret : MRet prog := @Ret.
#[global] Instance prog_bind : MBind prog := λ A B f p, bind p f.

Definition trigger {X} (e : event X) : prog X := Vis e Ret.

Definition ApiClient : prog Client := trigger EApiClient.
Definition call_api (client : Client) (name : string) (q : query) : prog Response :=
  trigger (ECallApi client name q).
Definition print (line : string) : prog unit := trigger (EPrint line).

(** [json.dumps(data)] *)
Definition json_dumps (data : Response) : prog string :=
  match dumps data with
  | inr text => Ret text
  | inl e => Raise (Serializer e)
  end.

(** [l[i]] for a list and a non-negative index. *)
Definition getitem (l : list string) (i : nat) : prog string :=
  match l !! i with
  | Some x => Ret x
  | None => Raise IndexError
  end.

(** ** The script *)

(** [def get_stock_data(symbol, interval='1d', range='1y')].  An omitted
    keyword parameter is [None] here and takes the default of the [def]
    line on entry. *)
Definition get_stock_data (symbol : string) (interval range : option string)
  : prog Response :=
  let interval := default "1d" interval in
  let range := default "1y" range in
  client ← ApiClient;
  response ← call_api client "YahooFinance/get_stock_chart"
    {[ "symbol" := PyStr symbol;
       "interval" := PyStr interval;
       "range" := PyStr range;
       "region" := PyStr "TW";
       "includeAdjustedClose" := PyBool true ]};
  mret response.

(** The [if __name__ == "__main__":] block; [argv] is [sys.argv], whose
    element 0 is the script path. *)
Definition main (argv : list string) : prog unit :=
  symbol ← (if (2 <=? length argv)%nat then getitem argv 1
            else mret "2330.TW");
  interval ← (if (3 <=? length argv)%nat then getitem argv 2
              else mret "1d");
  range_param ← (if (4 <=? length argv)%nat then getitem argv 3
                 else mret "1y");
  data ← get_stock_data symbol (Some interval) (Some range_param);
  text ← json_dumps data;
  print text.

(** ** Running a program against an external client *)

(** The two entry points of the collaborator the script uses.  Each may
    return or raise, and may change the outside world. *)
Record capability : Type := Capability {
  cap_new : Ext → (ExtFailure + Client) * Ext;
  cap_call : Client → string → query → Ext → (ExtFailure + Response) * Ext
}.

(** One outbound call as seen from the script: what was sent and what
    came back. *)
Record call : Type := Call {
  call_name : string;
  call_query : query;
  call_outcome : ExtFailure + Response
}.

(** The observable state of one process: the outside world, the log of
    outbound calls made so far, and the lines written by [print]. *)
Record World : Type := mkWorld {
  ext : Ext;
  calls : list call;
  stdout : list string
}.

Definition lift_ext {X} (o : ExtFailure + X) : failure ExtFailure + X :=
  match o with
  | inl e => inl (External e)
  | inr x => inr x
  end.

Variable cap : capability.

Definition handle {X} (e : event X) (w : World)
  : (failure ExtFailure + X) * World :=
  match e in event X return (failure ExtFailure + X) * World with
  | EApiClient =>
      let '(o, x) := cap_new cap (ext w) in
      (lift_ext o, mkWorld x (calls w) (stdout w))
  | ECallApi client name q =>
      let '(o, x) := cap_call cap client name q (ext w) in
      (lift_ext o, mkWorld x (calls w ++ [Call name q o]) (stdout w))
  | EPrint line =>
      (inr tt, mkWorld (ext w) (calls w) (stdout w ++ [line]))
  end.

(** Big-step: run to completion.  An exception ends the run where it is
    raised; nothing in the script catches one. *)
Fixpoint run {A} (p : prog A) (w : World) : (failure ExtFailure + A) * World :=
  match p with
  | Ret a => (inr a, w)
  | Raise f => (inl f, w)
  | Vis e k =>
      let '(o, w') := handle e w in
      match o with
      | inr x => run (k x) w'
      | inl f => (inl f, w')
      end
  end.

(** Small-step: one event at a time. *)
Definition config (A : Type) : Type := prog A * World.

Definition halt {A} (o : failure ExtFailure + A) : prog A :=
  match o with
  | inr a => Ret a
  | inl f => Raise f
  end.

Definition step {A} (c : config A) : option (config A) :=
  match c.1 with
  | Ret _ | Raise _ => None
  | Vis e k =>
      let '(o, w') := handle e c.2 in
      Some (match o with inr x => k x | inl f => Raise f end, w')
  end.

Definition steps {A} : relation (config A) := rtc (λ c c', step c = Some c').

(** The calls a program makes when started in [w]. *)
Definition outbound {A} (p : prog A) (w : World) : list call :=
  drop (length (calls w)) (calls (run p w).2).

(** What a program prints when started in [w]. *)
Definition printed {A} (p : prog A) (w : World) : list string :=
  drop (length (stdout w)) (stdout (run p w).2).

Definition is_call {X} (e : event X) : bool :=
  match e with
  | ECallApi _ _ _ => true
  | _ => false
  end.

(** [outbound_le n p]: no path through [p] holds more than [n]
    [call_api] events. *)
Fixpoint outbound_le {A} (n : nat) (p : prog A) : Prop :=
  match p with
  | Ret _ | Raise _ => True
  | Vis e k =>
      if is_call e then
        match n with
        | 0 => False
        | S m => ∀ x, outbound_le m (k x)
        end
      else ∀ x, outbound_le n (k x)
  end.

End Fetcher.

Arguments Ret {Client Response ExtFailure A} a.
Arguments Raise {Client Response ExtFailure A} f.
Arguments Vis {Client Response ExtFailure A X} e k.
Arguments Call {Response ExtFailure} _ _ _.
Arguments mkWorld {Response ExtFailure Ext} _ _ _.

(** ** Reference values and observations *)

(** The query as the specification words it (data model, testable
    properties): the mapping with the five entries symbol, interval,
    range, region ["TW"] and includeAdjustedClose [true].  The literal
    inside [get_stock_data] is the code's; [query_literal] below compares
    the two. *)
Definition spec_query (symbol interval range : string) : query :=
  list_to_map [("symbol", PyStr symbol); ("interval", PyStr interval);
               ("range", PyStr range); ("region", PyStr "TW");
               ("includeAdjustedClose", PyBool true)].

Definition endpoint : string := "YahooFinance/get_stock_chart".

(** The five keys of the dictionary literal. *)
Definition query_keys : gset string :=
  {[ "symbol"; "interval"; "range"; "region"; "includeAdjustedClose" ]}.

Section Observations.

Context {Client Response ExtFailure Ext : Type}.

Abbreviation capability := (capability (Client:=Client) (Response:=Response)
                                       (ExtFailure:=ExtFailure) (Ext:=Ext)).
Abbreviation World := (World (Response:=Response) (ExtFailure:=ExtFailure) (Ext:=Ext)).
Abbreviation prog := (prog (Client:=Client) (Response:=Response) (ExtFailure:=ExtFailure)).

(** The queries of the calls a program makes. *)
Definition queries (cap : capability) {A} (p : prog A) (w : World) : list query :=
  call_query <$> outbound cap p w.

(** Did [ApiClient()] return a client in this world? *)
Definition client_ok (cap : capability) (w : World) : bool :=
  match (cap_new cap (ext w)).1 with
  | inr _ => true
  | inl _ => false
  end.

(** The exception, if any, that the client raises when it is asked first
    for a client and then for [q]. *)
Definition capability_failure (cap : capability) (q : query) (w : World)
  : option ExtFailure :=
  match cap_new cap (ext w) with
  | (inl e, _) => Some e
  | (inr client, x) =>
      match (cap_call cap client endpoint q x).1 with
      | inl e => Some e
      | inr _ => None
      end
  end.

(** Positional argument [i] of the command line, or its fallback. *)
Definition cli_arg (argv : list string) (i : nat) (d : string) : string :=
  default d (argv !! i).

End Observations.

(** ** A stand-in for the external client and for the library

    A closed instance of the parameters above, for evaluating the script
    on concrete inputs: Python values as responses, exception messages as
    failures, [json.dumps] and [json.loads] on those values, and a
    provider that serves one canned chart, rejects intervals it does not
    know, and counts the requests it has seen.

    The values are those without floats; a character of a string stands
    for a code point below 256; a dict is the list of its items, with
    distinct string keys, in insertion order. *)
Module Stub.

#[warnings="-register-all"] Inductive pyobj : Type :=
| ONone
| OBool (b : bool)
| OInt (n : Z)
| OStr (s : string)
| OList (l : list pyobj)
| OTuple (l : list pyobj)
| ODict (d : list (string * pyobj))
| OSet (l : list pyobj).

Definition client : Type := unit.
Definition exn : Type := string.

(** A backslash followed by [c]. *)
Definition bs (c : ascii) : string := String "092" (String c EmptyString).

Definition hex_digit (n : nat) : ascii :=
  nth n (list_ascii_of_string "0123456789abcdef") "0"%char.

(** The escapes of [json.dumps] with its default [ensure_ascii=True]:
    short forms for the quote, the backslash and five control
    characters, the character itself from the space to the tilde, and
    [\u00xx] for the rest. *)
Definition escape_char (c : ascii) : string :=
  let n := nat_of_ascii c in
  if (n =? 34)%nat then bs "034"
  else if (n =? 92)%nat then bs "092"
  else if (n =? 10)%nat then bs "n"
  else if (n =? 13)%nat then bs "r"
  else if (n =? 9)%nat then bs "t"
  else if (n =? 8)%nat then bs "b"
  else if (n =? 12)%nat then bs "f"
  else if ((32 <=? n) && (n <=? 126))%nat then String c EmptyString
  else bs "u" ++ String "0" (String "0" (String (hex_digit (n / 16))
                (String (hex_digit (n mod 16)) EmptyString))).

Fixpoint escape (s : string) : string :=
  match s with
  | EmptyString => EmptyString
  | String c r => escape_char c ++ escape r
  end.

Definition quote (s : string) : string :=
  String "034"%char (escape s ++ String "034"%char EmptyString).

Definition and_then {A B} (x : exn + A) (f : A → exn + B) : exn + B :=
  match x with
  | inl e => inl e
  | inr a => f a
  end.

(** [json.dumps] with its default arguments: [", "] between items and
    [": "] after keys; a tuple is written as a list; a set is refused. *)
Fixpoint dumps (v : pyobj) : exn + string :=
  match v with
  | ONone => inr "null"
  | OBool true => inr "true"
  | OBool false => inr "false"
  | OInt n => inr (pretty n)
  | OStr s => inr (quote s)
  | OList l | OTuple l =>
      let fix items (l : list pyobj) : exn + string :=
        match l with
        | [] => inr EmptyString
        | [x] => dumps x
        | x :: r =>
            and_then (dumps x) (λ t,
            and_then (items r) (λ ts, inr (t ++ ", " ++ ts)))
        end in
      and_then (items l) (λ ts, inr ("[" ++ ts ++ "]"))
  | ODict d =>
      let fix members (d : list (string * pyobj)) : exn + string :=
        match d with
        | [] => inr EmptyString
        | [(k, x)] => and_then (dumps x) (λ t, inr (quote k ++ ": " ++ t))
        | (k, x) :: r =>
            and_then (dumps x) (λ t,
            and_then (members r) (λ ts, inr (quote k ++ ": " ++ t ++ ", " ++ ts)))
        end in
      and_then (members d) (λ ts, inr ("{" ++ ts ++ "}"))
  | OSet _ => inl "Object of type set is not JSON serializable"
  end.

Definition is_digit (c : ascii) : bool :=
  (48 <=? nat_of_ascii c)%nat && (nat_of_ascii c <=? 57)%nat.

Definition hex_value (c : ascii) : option nat :=
  let n := nat_of_ascii c in
  if is_digit c then Some (n - 48)%nat
  else if ((97 <=? n) && (n <=? 102))%nat then Some (n - 87)%nat
  else if ((65 <=? n) && (n <=? 70))%nat then Some (n - 55)%nat
  else None.

Definition is_ws (c : ascii) : bool :=
  let n := nat_of_ascii c in
  ((n =? 32) || (n =? 9) || (n =? 10) || (n =? 13))%nat.

Fixpoint skip_ws (s : list ascii) : list ascii :=
  match s with
  | c :: r => if is_ws c then skip_ws r else s
  | [] => []
  end.

Fixpoint read_digits (acc : Z) (s : list ascii) : Z * list ascii :=
  match s with
  | c :: r =>
      if is_digit c
      then read_digits (10 * acc + Z.of_nat (nat_of_ascii c - 48)) r
      else (acc, s)
  | [] => (acc, [])
  end.

(** An integer literal: no leading zero, and no fraction or exponent
    after it (that would be a float). *)
Definition read_int (s : list ascii) : option (Z * list ascii) :=
  match s with
  | c :: r =>
      if is_digit c then
        let '(n, rest) := read_digits 0 s in
        let leading_zero :=
          match r with
          | d :: _ => Ascii.eqb c "0" && is_digit d
          | [] => false
          end in
        let float :=
          match rest with
          | d :: _ => (Ascii.eqb d "." || Ascii.eqb d "e" || Ascii.eqb d "E")%char
          | [] => false
          end in
        if leading_zero || float then None else Some (n, rest)
      else None
  | [] => None
  end.

(** The escape after a backslash; [\uXXXX] is read when the code point
    is below 256. *)
Definition read_escape (s : list ascii) : option (ascii * list ascii) :=
  match s with
  | "u"%char :: a :: b :: c :: d :: rest =>
      a ← hex_value a; b ← hex_value b; c ← hex_value c; d ← hex_value d;
      let n := (((a * 16 + b) * 16 + c) * 16 + d)%nat in
      if (n <? 256)%nat then Some (ascii_of_nat n, rest) else None
  | e :: rest =>
      let n := nat_of_ascii e in
      if (n =? 34)%nat || (n =? 92)%nat || (n =? 47)%nat then Some (e, rest)
      else if (n =? 110)%nat then Some ("010"%char, rest)
      else if (n =? 114)%nat then Some ("013"%char, rest)
      else if (n =? 116)%nat then Some ("009"%char, rest)
      else if (n =? 98)%nat then Some ("008"%char, rest)
      else if (n =? 102)%nat then Some ("012"%char, rest)
      else None
  | [] => None
  end.

(** The rest of a string literal, after its opening quote.  A raw
    control character is refused. *)
Fixpoint read_string (fuel : nat) (s : list ascii) : option (string * list ascii) :=
  match fuel with
  | 0 => None
  | S fuel =>
      match s with
      | [] => None
      | c :: r =>
          if Ascii.eqb c "034"%char then Some (EmptyString, r)
          else if Ascii.eqb c "092"%char then
            '(e, r') ← read_escape r;
            '(t, rest) ← read_string fuel r';
            Some (String e t, rest)
          else if (nat_of_ascii c <? 32)%nat then None
          else '(t, rest) ← read_string fuel r; Some (String c t, rest)
      end
  end.

(** [d[k] = x] on the items of a dict. *)
Fixpoint dict_set (k : string) (x : pyobj) (d : list (string * pyobj))
  : list (string * pyobj) :=
  match d with
  | [] => [(k, x)]
  | (k', x') :: r =>
      if String.eqb k k' then (k, x) :: r else (k', x') :: dict_set k x r
  end.

(** [json.loads] on texts without floats.  [fuel] bounds the number of
    values read along any path. *)
Fixpoint read_value (fuel : nat) (s : list ascii) : option (pyobj * list ascii) :=
  match fuel with
  | 0 => None
  | S fuel =>
      match skip_ws s with
      | "n" :: "u" :: "l" :: "l" :: r => Some (ONone, r)
      | "t" :: "r" :: "u" :: "e" :: r => Some (OBool true, r)
      | "f" :: "a" :: "l" :: "s" :: "e" :: r => Some (OBool false, r)
      | "034" :: r => '(t, rest) ← read_string (S (length r)) r; Some (OStr t, rest)
      | "[" :: r =>
          match skip_ws r with
          | "]" :: rest => Some (OList [], rest)
          | _ => '(l, rest) ← read_items fuel r; Some (OList l, rest)
          end
      | "{" :: r =>
          match skip_ws r with
          | "}" :: rest => Some (ODict [], rest)
          | _ =>
              '(d, rest) ← read_members fuel r;
              Some (ODict (foldl (λ acc kx, dict_set kx.1 kx.2 acc) [] d), rest)
          end
      | "-" :: r => '(n, rest) ← read_int r; Some (OInt (- n), rest)
      | r => '(n, rest) ← read_int r; Some (OInt n, rest)
      end
  end%char
with read_items (fuel : nat) (s : list ascii) : option (list pyobj * list ascii) :=
  match fuel with
  | 0 => None
  | S fuel =>
      '(x, r) ← read_value fuel s;
      match skip_ws r with
      | "," :: r' => '(l, rest) ← read_items fuel r'; Some (x :: l, rest)
      | "]" :: rest => Some ([x], rest)
      | _ => None
      end
  end%char
with read_members (fuel : nat) (s : list ascii)
  : option (list (string * pyobj) * list ascii) :=
  match fuel with
  | 0 => None
  | S fuel =>
      match skip_ws s with
      | "034" :: r =>
          '(k, r1) ← read_string (S (length r)) r;
          match skip_ws r1 with
          | ":" :: r2 =>
              '(x, r3) ← read_value fuel r2;
              match skip_ws r3 with
              | "," :: r4 => '(d, rest) ← read_members fuel r4; Some ((k, x) :: d, rest)
              | "}" :: rest => Some ([(k, x)], rest)
              | _ => None
              end
          | _ => None
          end
      | _ => None
      end
  end%char.

Definition loads (s : string) : option pyobj :=
  let text := list_ascii_of_string s in
  '(v, rest) ← read_value (S (length text)) text;
  match skip_ws rest with
  | [] => Some v
  | _ => None
  end.

(** The text of a value that [dumps] accepts. *)
Definition text_of (v : pyobj) : string :=
  match dumps v with
  | inr text => text
  | inl _ => EmptyString
  end.

Definition chart : pyobj :=
  ODict [("chart",
    ODict [("result",
             OList [ODict [("meta", ODict [("symbol", OStr "2330.TW");
                                           ("currency", OStr "TWD")]);
                           ("timestamp", OList [OInt 1700000000; OInt 1700086400]);
                           ("adjclose", OList [OInt 580; OInt (-3)])]]);
           ("error", ONone)])].



(** A response holding a set. *)
Definition chart_with_set : pyobj :=
  ODict [("symbols", OSet [OStr "2330.TW"])].

Definition known_intervals : list pyval :=
  PyStr <$> ["1m"; "2m"; "5m"; "15m"; "30m"; "60m"; "1d"; "1wk"; "1mo"].

Definition provider : capability (Client:=client) (Response:=pyobj)
                                 (ExtFailure:=exn) (Ext:=nat) :=
  {| cap_new := λ served, (inr tt, served);
     cap_call := λ _ name q served,
       (match q !! "interval" with
        | Some i =>
            if bool_decide (i ∈ known_intervals) then inr chart
            else inl "invalid interval"
        | None => inl "missing interval"
        end, S served) |}.

(** A provider that answers every query with [r]. *)
Definition serving (r : pyobj) : capability (Client:=client) (Response:=pyobj)
                                            (ExtFailure:=exn) (Ext:=nat) :=
  {| cap_new := λ served, (inr tt, served);
     cap_call := λ _ _ _ served, (inr r, S served) |}.

(** A provider whose client cannot even be constructed. *)
Definition offline : capability (Client:=client) (Response:=pyobj)
                                (ExtFailure:=exn) (Ext:=nat) :=
  {| cap_new := λ served, (inl "no credentials", served);
     cap_call := λ _ _ _ served, (inr ONone, S served) |}.

Definition fresh : World (Response:=pyobj) (ExtFailure:=exn) (Ext:=nat) :=
  mkWorld 0 [] [].

Definition script : string := "yahoo_finance.py".

(** The state right after the outbound call and before the [print]. *)
Definition after_call
  : config (Client:=client) (Response:=pyobj) (ExtFailure:=exn)
           (Ext:=nat) () :=
  (json_dumps dumps chart ≫= print,
   mkWorld 1%nat [Call endpoint (spec_query "2330.TW" "1d" "1y") (inr chart)] []).

(** A world in which the provider has already served requests and the
    process has already printed. *)
Definition busy : World (Response:=pyobj) (ExtFailure:=exn) (Ext:=nat) :=
  mkWorld 7%nat [Call "Other/endpoint" ∅ (inr ONone)] ["earlier output"].

End Stub.

(** * Properties *)

Section FetcherFacts.

Context {Client Response ExtFailure Ext : Type}.
Variable dumps : Response → ExtFailure + string.

Abbreviation capability := (capability (Client:=Client) (Response:=Response)
                                       (ExtFailure:=ExtFailure) (Ext:=Ext)).
Abbreviation World := (World (Response:=Response) (ExtFailure:=ExtFailure) (Ext:=Ext)).
Abbreviation prog := (prog (Client:=Client) (Response:=Response) (ExtFailure:=ExtFailure)).

Variable cap : capability.

(** ** The interpreter *)

Lemma run_bind {A B} (p : prog A) (f : A → prog B) (w : World) :
  run cap (p ≫= f) w =
  match run cap p w with
  | (inr a, w') => run cap (f a) w'
  | (inl e, w') => (inl e, w')
  end.
Proof.
  revert w. induction p as [a|e|X e k IH]; intros w; try reflexivity.
  change (Vis e k ≫= f) with (Vis e (λ x, k x ≫= f)). simpl.
  destruct (handle cap e w) as [[e'|x] w']; [reflexivity|]. apply IH.
Qed.

Lemma step_halted {A} (o : failure ExtFailure + A) (w : World) :
  step cap (halt o, w) = None.
Proof. by destruct o. Qed.

(** The small-step relation reaches the big-step result. *)
Lemma run_steps {A} (p : prog A) (w : World) :
  steps cap (p, w) (halt (run cap p w).1, (run cap p w).2).
Proof.
  revert w. induction p as [a|e|X e k IH]; intros w; try apply rtc_refl.
  simpl. destruct (handle cap e w) as [[f|x] w'] eqn:He.
  - apply rtc_once. unfold step. simpl. by rewrite He.
  - eapply rtc_l; [|apply IH]. unfold step. simpl. by rewrite He.
Qed.

(** Steps are deterministic: a run is the one sequence of steps. *)
Lemma step_functional {A} (c c1 c2 : config A) :
  step cap c = Some c1 → step cap c = Some c2 → c1 = c2.
Proof. congruence. Qed.

(** ** Counting outbound calls *)

Lemma outbound_le_mono {A} (p : prog A) (n m : nat) :
  (n ≤ m)%nat → outbound_le n p → outbound_le m p.
Proof.
  revert n m. induction p as [a|e|X e k IH]; intros n m Hnm; simpl; try done.
  destruct (is_call e).
  - destruct n as [|n]; [done|]. destruct m as [|m]; [lia|].
    intros H x. apply (IH x n m); [lia|apply H].
  - intros H x. apply (IH x n m); [lia|apply H].
Qed.

Lemma outbound_le_bind {A B} (p : prog A) (f : A → prog B) (n m : nat) :
  outbound_le n p → (∀ a, outbound_le m (f a)) → outbound_le (n + m) (p ≫= f).
Proof.
  intros Hp Hf. revert n Hp.
  induction p as [a|e|X e k IH]; intros n Hp.
  - apply (outbound_le_mono _ m); [lia|apply Hf].
  - done.
  - change (Vis e k ≫= f) with (Vis e (λ x, k x ≫= f)). simpl in *.
    destruct (is_call e).
    + destruct n as [|n]; [done|]. simpl. intros x. apply IH, Hp.
    + intros x. apply IH, Hp.
Qed.

Lemma step_outbound_le {A} (n : nat) (c c' : config A) :
  step cap c = Some c' → outbound_le n c.1 →
  ∃ m, outbound_le m c'.1 ∧ (length (calls c'.2) + m ≤ length (calls c.2) + n)%nat.
Proof.
  destruct c as [p w]. unfold step. simpl.
  destruct p as [a|f|X e k]; [done|done|].
  destruct e as [|client name q|line]; simpl.
  - destruct (cap_new cap (ext w)) as [o x]. intros [= <-] H. exists n.
    split; [|simpl; lia]. destruct o; simpl; [done|apply H].
  - destruct (cap_call cap client name q (ext w)) as [o x]. intros [= <-] H.
    destruct n as [|n]; [done|]. exists n.
    split; [|simpl; rewrite length_app; simpl; lia].
    destruct o; simpl; [done|apply H].
  - intros [= <-] H. exists n. split; [apply H|simpl; lia].
Qed.

Lemma steps_outbound_le {A} (n : nat) (c c' : config A) :
  steps cap c c' → outbound_le n c.1 →
  (length (calls c'.2) ≤ length (calls c.2) + n)%nat.
Proof.
  intros Hs. revert n. induction Hs as [c|c c1 c' H1 _ IH]; intros n Hn; [lia|].
  destruct (step_outbound_le n c c1 H1 Hn) as (m & Hm & Hle).
  specialize (IH m Hm). lia.
Qed.

(** ** The script, event by event *)

Lemma query_literal (symbol interval range : string) :
  ({[ "symbol" := PyStr symbol; "interval" := PyStr interval;
      "range" := PyStr range; "region" := PyStr "TW";
      "includeAdjustedClose" := PyBool true ]} : query) =
  spec_query symbol interval range.
Proof. unfold spec_query. simpl. by rewrite insert_empty. Qed.

Lemma run_get_stock_data symbol interval range (w : World) :
  run cap (get_stock_data symbol interval range) w =
  match cap_new cap (ext w) with
  | (inl e, x) => (inl (External e), mkWorld x (calls w) (stdout w))
  | (inr client, x) =>
      let q := spec_query symbol (default "1d" interval) (default "1y" range) in
      let '(o, x') := cap_call cap client endpoint q x in
      (lift_ext o, mkWorld x' (calls w ++ [Call endpoint q o]) (stdout w))
  end.
Proof.
  unfold get_stock_data. simpl.
  destruct (cap_new cap (ext w)) as [[e|client] x]; simpl; [reflexivity|].
  rewrite query_literal. fold endpoint.
  destruct (cap_call cap client endpoint _ x) as [[e|r] x']; reflexivity.
Qed.

(** The guards [len(sys.argv) >= n] keep every [sys.argv[i]] in range, so
    the block is a call of [get_stock_data] followed by [json.dumps] and
    [print]. *)
Lemma main_eq (argv : list string) :
  (main dumps argv : prog ()) =
  get_stock_data (cli_arg argv 1 "2330.TW")
                 (Some (cli_arg argv 2 "1d")) (Some (cli_arg argv 3 "1y"))
    ≫= λ data, json_dumps dumps data ≫= print.
Proof. destruct argv as [|a0 [|a1 [|a2 [|a3 rest]]]]; reflexivity. Qed.

Lemma run_main (argv : list string) (w : World) :
  run cap (main dumps argv) w =
  match run cap (get_stock_data (cli_arg argv 1 "2330.TW")
                   (Some (cli_arg argv 2 "1d")) (Some (cli_arg argv 3 "1y"))) w with
  | (inr data, w') =>
      match dumps data with
      | inr text =>
          (inr (), mkWorld (ext w') (calls w') (stdout w' ++ [text])%list)
      | inl e => (inl (Serializer e), w')
      end
  | (inl f, w') => (inl f, w')
  end.
Proof.
  rewrite main_eq, run_bind.
  destruct (run cap (get_stock_data _ _ _) w) as [[f|data] w']; [done|].
  unfold json_dumps. by destruct (dumps data).
Qed.

Lemma outbound_get_stock_data symbol interval range (w : World) :
  outbound cap (get_stock_data symbol interval range) w =
  match cap_new cap (ext w) with
  | (inl _, _) => []
  | (inr client, x) =>
      let q := spec_query symbol (default "1d" interval) (default "1y" range) in
      [Call endpoint q (cap_call cap client endpoint q x).1]
  end.
Proof.
  unfold outbound. rewrite run_get_stock_data.
  destruct (cap_new cap (ext w)) as [[e|client] x]; simpl.
  - apply drop_all.
  - destruct (cap_call cap client endpoint _ x) as [o x']. simpl.
    by rewrite drop_app_length.
Qed.

Lemma outbound_main (argv : list string) (w : World) :
  outbound cap (main dumps argv) w =
  outbound cap (get_stock_data (cli_arg argv 1 "2330.TW")
                  (Some (cli_arg argv 2 "1d")) (Some (cli_arg argv 3 "1y"))) w.
Proof.
  unfold outbound. rewrite run_main.
  destruct (run cap (get_stock_data _ _ _) w) as [[f|data] w']; [done|].
  by destruct (dumps data).
Qed.

Lemma queries_get_stock_data symbol interval range (w : World) :
  queries cap (get_stock_data symbol interval range) w =
  if client_ok cap w
  then [spec_query symbol (default "1d" interval) (default "1y" range)]
  else [].
Proof.
  unfold queries, client_ok. rewrite outbound_get_stock_data.
  by destruct (cap_new cap (ext w)) as [[e|client] x].
Qed.

Lemma queries_main (argv : list string) (w : World) :
  queries cap (main dumps argv) w =
  if client_ok cap w
  then [spec_query (cli_arg argv 1 "2330.TW") (cli_arg argv 2 "1d")
                   (cli_arg argv 3 "1y")]
  else [].
Proof. unfold queries. rewrite outbound_main. apply queries_get_stock_data. Qed.

(** ** What the query holds *)

Lemma spec_query_lookups (symbol interval range : string) :
  spec_query symbol interval range !! "symbol" = Some (PyStr symbol) ∧
  spec_query symbol interval range !! "interval" = Some (PyStr interval) ∧
  spec_query symbol interval range !! "range" = Some (PyStr range) ∧
  spec_query symbol interval range !! "region" = Some (PyStr "TW") ∧
  spec_query symbol interval range !! "includeAdjustedClose" = Some (PyBool true).
Proof. unfold spec_query. simpl. repeat split; by simplify_map_eq. Qed.

Lemma spec_query_dom (symbol interval range : string) :
  dom (spec_query symbol interval range) = query_keys.
Proof.
  unfold spec_query, query_keys. simpl.
  rewrite !dom_insert_L, dom_empty_L. set_solver.
Qed.

Lemma length_queries_get_stock_data symbol interval range (w : World) :
  length (queries cap (get_stock_data symbol interval range) w) =
  if client_ok cap w then 1%nat else 0%nat.
Proof. rewrite queries_get_stock_data. by destruct (client_ok cap w). Qed.

Lemma length_queries_main (argv : list string) (w : World) :
  length (queries cap (main dumps argv) w) =
  if client_ok cap w then 1%nat else 0%nat.
Proof. rewrite queries_main. by destruct (client_ok cap w). Qed.

(** C1.  Whatever the symbol, interval and range (given or omitted), and
    whatever the client and the world, every query [get_stock_data] sends
    has [region] set to ["TW"] and [includeAdjustedClose] set to [True];
    one such query is sent as soon as [ApiClient()] returns. *)
Theorem get_stock_data_fixes_region_and_adjclose
    (symbol : string) (interval range : option string) (w : World) :
  Forall (λ q : query, q !! "region" = Some (PyStr "TW") ∧
                       q !! "includeAdjustedClose" = Some (PyBool true))
         (queries cap (get_stock_data symbol interval range) w) ∧
  length (queries cap (get_stock_data symbol interval range) w) =
    (if client_ok cap w then 1%nat else 0%nat).
Proof.
  split; [|apply length_queries_get_stock_data].
  rewrite queries_get_stock_data. destruct (client_ok cap w); [|constructor].
  repeat constructor; apply spec_query_lookups.
Qed.

(** C3.  With no command-line argument ([sys.argv] holds the script path
    only) the query sent carries symbol ["2330.TW"], interval ["1d"] and
    range ["1y"]. *)
Theorem main_no_argument_uses_defaults (script : string) (w : World) :
  Forall (λ q : query, q !! "symbol" = Some (PyStr "2330.TW") ∧
                       q !! "interval" = Some (PyStr "1d") ∧
                       q !! "range" = Some (PyStr "1y"))
         (queries cap (main dumps [script]) w) ∧
  length (queries cap (main dumps [script]) w) =
    (if client_ok cap w then 1%nat else 0%nat).
Proof.
  split; [|apply length_queries_main].
  rewrite queries_main. destruct (client_ok cap w); [|constructor].
  repeat constructor; apply (spec_query_lookups "2330.TW" "1d" "1y").
Qed.

(** C7.  With the single argument ["AAPL"] the query sent carries symbol
    ["AAPL"], and interval and range stay ["1d"] and ["1y"]. *)
Theorem main_one_argument_sets_symbol (script : string) (w : World) :
  Forall (λ q : query, q !! "symbol" = Some (PyStr "AAPL") ∧
                       q !! "interval" = Some (PyStr "1d") ∧
                       q !! "range" = Some (PyStr "1y"))
         (queries cap (main dumps [script; "AAPL"]) w) ∧
  length (queries cap (main dumps [script; "AAPL"]) w) =
    (if client_ok cap w then 1%nat else 0%nat).
Proof.
  split; [|apply length_queries_main].
  rewrite queries_main. destruct (client_ok cap w); [|constructor].
  repeat constructor; apply (spec_query_lookups "AAPL" "1d" "1y").
Qed.

(** C8.  With the arguments ["0050.TW"], ["1wk"], ["5y"] the query sent
    is the mapping with exactly the five entries symbol ["0050.TW"],
    interval ["1wk"], range ["5y"], region ["TW"] and
    includeAdjustedClose [True]: every query sent equals it, its key set
    is those five keys, and one is sent as soon as [ApiClient()]
    returns. *)
Theorem main_three_arguments_exact_query (script : string) (w : World) :
  let expected : query :=
    <["symbol" := PyStr "0050.TW"]> (<["interval" := PyStr "1wk"]>
    (<["range" := PyStr "5y"]> (<["region" := PyStr "TW"]>
    (<["includeAdjustedClose" := PyBool true]> ∅)))) in
  Forall (λ q : query, q = expected)
         (queries cap (main dumps [script; "0050.TW"; "1wk"; "5y"]) w) ∧
  dom expected = query_keys ∧ size expected = 5%nat ∧
  length (queries cap (main dumps [script; "0050.TW"; "1wk"; "5y"]) w) =
    (if client_ok cap w then 1%nat else 0%nat).
Proof.
  intros expected.
  assert (expected = spec_query "0050.TW" "1wk" "5y") as -> by reflexivity.
  split; [|split; [apply spec_query_dom|split; [|apply length_queries_main]]].
  - rewrite queries_main. destruct (client_ok cap w); repeat constructor.
  - by vm_compute.
Qed.

(** ** Failures and output *)

Lemma result_get_stock_data symbol interval range (w : World) :
  (run cap (get_stock_data symbol interval range) w).1 =
  match cap_new cap (ext w) with
  | (inl e, _) => inl (External e)
  | (inr client, x) =>
      lift_ext (cap_call cap client endpoint
                  (spec_query symbol (default "1d" interval) (default "1y" range)) x).1
  end.
Proof.
  rewrite run_get_stock_data.
  destruct (cap_new cap (ext w)) as [[e|client] x]; simpl; [done|].
  by destruct (cap_call cap client endpoint _ x).
Qed.

Lemma printed_main (argv : list string) (w : World) :
  printed cap (main dumps argv) w =
  match (run cap (get_stock_data (cli_arg argv 1 "2330.TW")
                    (Some (cli_arg argv 2 "1d")) (Some (cli_arg argv 3 "1y"))) w).1 with
  | inr data =>
      match dumps data with
      | inr text => [text]
      | inl _ => []
      end
  | inl _ => []
  end.
Proof.
  unfold printed. rewrite run_main, run_get_stock_data.
  destruct (cap_new cap (ext w)) as [[e|client] x]; simpl; [apply drop_all|].
  destruct (cap_call cap client endpoint _ x) as [[e|r] x']; simpl;
    [apply drop_all|].
  destruct (dumps r); simpl; [apply drop_all|by rewrite drop_app_length].
Qed.

Lemma result_main (argv : list string) (w : World) :
  (run cap (main dumps argv) w).1 =
  match (run cap (get_stock_data (cli_arg argv 1 "2330.TW")
                    (Some (cli_arg argv 2 "1d")) (Some (cli_arg argv 3 "1y"))) w).1 with
  | inr data =>
      match dumps data with
      | inr _ => inr ()
      | inl e => inl (Serializer e)
      end
  | inl f => inl f
  end.
Proof.
  rewrite run_main.
  destruct (run cap (get_stock_data _ _ _) w) as [[f|data] w']; [done|].
  simpl. by destruct (dumps data).
Qed.

(** C4.  Nothing is checked locally.  For every symbol, interval and
    range string, in the allowed sets or not, the query sent carries the
    three strings unchanged; the call is made as soon as [ApiClient()]
    returns; and the function never fails with an error of the script's
    own. *)
Theorem get_stock_data_forwards_unvalidated (symbol interval range : string)
    (w : World) :
  Forall (λ q : query, q !! "symbol" = Some (PyStr symbol) ∧
                       q !! "interval" = Some (PyStr interval) ∧
                       q !! "range" = Some (PyStr range))
         (queries cap (get_stock_data symbol (Some interval) (Some range)) w) ∧
  length (queries cap (get_stock_data symbol (Some interval) (Some range)) w) =
    (if client_ok cap w then 1%nat else 0%nat) ∧
  match (run cap (get_stock_data symbol (Some interval) (Some range)) w).1 with
  | inl IndexError => False
  | _ => True
  end.
Proof.
  split; [|split; [apply length_queries_get_stock_data|]].
  - rewrite queries_get_stock_data. destruct (client_ok cap w); [|constructor].
    repeat constructor; apply (spec_query_lookups symbol interval range).
  - rewrite result_get_stock_data.
    destruct (cap_new cap (ext w)) as [[e|client] x]; [done|].
    by destruct (cap_call cap client endpoint _ x) as [[e|r] x'].
Qed.

(** C5.  A failure of the client is the failure of the function and of
    the program, unchanged.  If the client raises [e] (from [ApiClient()]
    or from [call_api]), [get_stock_data] ends with exactly [e], and so
    does the program, which then has printed nothing and has made at
    most one call.  If the client raises nothing, the function returns
    normally, and the program ends neither with a failure of the client
    nor with an error of its own. *)
Theorem capability_failure_propagates
    (symbol : string) (interval range : option string)
    (argv : list string) (w : World) :
  match capability_failure cap
          (spec_query symbol (default "1d" interval) (default "1y" range)) w with
  | Some e =>
      (run cap (get_stock_data symbol interval range) w).1 = inl (External e)
  | None =>
      match (run cap (get_stock_data symbol interval range) w).1 with
      | inr _ => True
      | inl _ => False
      end
  end ∧
  match capability_failure cap
          (spec_query (cli_arg argv 1 "2330.TW") (cli_arg argv 2 "1d")
                      (cli_arg argv 3 "1y")) w with
  | Some e =>
      (run cap (main dumps argv) w).1 = inl (External e) ∧
      printed cap (main dumps argv) w = [] ∧
      stdout (run cap (main dumps argv) w).2 = stdout w ∧
      (length (outbound cap (main dumps argv) w) ≤ 1)%nat
  | None =>
      match (run cap (main dumps argv) w).1 with
      | inl IndexError | inl (External _) => False
      | _ => True
      end
  end.
Proof.
  split.
  - rewrite result_get_stock_data. unfold capability_failure.
    destruct (cap_new cap (ext w)) as [[e|client] x]; [done|].
    by destruct (cap_call cap client endpoint _ x) as [[e|r] x'].
  - rewrite result_main, printed_main, result_get_stock_data.
    rewrite outbound_main, outbound_get_stock_data, run_main, run_get_stock_data.
    unfold capability_failure.
    destruct (cap_new cap (ext w)) as [[e|client] x]; simpl; [by auto|].
    destruct (cap_call cap client endpoint _ x) as [[e|r] x']; simpl;
      [by auto|].
    by destruct (dumps r).
Qed.


(** ** At most one outbound call *)

Lemma get_stock_data_outbound_le symbol interval range :
  outbound_le 1 (get_stock_data symbol interval range : prog Response).
Proof. by intros client r. Qed.

Lemma main_outbound_le (argv : list string) :
  outbound_le 1 (main dumps argv : prog ()).
Proof.
  rewrite main_eq.
  apply (outbound_le_bind _ _ 1 0); [apply get_stock_data_outbound_le|].
  intros data. unfold json_dumps. destruct (dumps data); [done|].
  by intros [].
Qed.

Lemma steps_to_terminal {A} (c0 c cf : config A) :
  steps cap c0 c → steps cap c0 cf → step cap cf = None → steps cap c cf.
Proof.
  intros Hc. revert cf. induction Hc as [c|c0 c1 c H1 _ IH]; intros cf Hf Hnone; [done|].
  apply IH; [|done]. inversion Hf as [|? c1' ? H1' Hf']; subst.
  - congruence.
  - by rewrite (step_functional _ _ _ H1 H1').
Qed.

(** C6.  One invocation makes at most one outbound call.  In every state
    the program can reach, the log has grown by at most one call; every
    such state still leads to the final state of the run; and the
    finished run has made exactly one call if [ApiClient()] returned a
    client and none otherwise. *)
Theorem main_at_most_one_outbound_call (argv : list string) (w : World)
    (c : config ()) :
  steps cap (main dumps argv, w) c →
  (length (calls c.2) ≤ length (calls w) + 1)%nat ∧
  steps cap c (halt (run cap (main dumps argv) w).1,
               (run cap (main dumps argv) w).2) ∧
  length (outbound cap (main dumps argv) w) =
    (if client_ok cap w then 1%nat else 0%nat).
Proof.
  intros Hc. split; [|split].
  - exact (steps_outbound_le 1 _ _ Hc (main_outbound_le argv)).
  - eapply steps_to_terminal; [exact Hc|apply run_steps|apply step_halted].
  - rewrite <- (length_queries_main argv w). unfold queries.
    by rewrite length_fmap.
Qed.

(** ** Defaults *)

(** C9.  Omitting interval and range in a call of [get_stock_data] is
    the same program as passing ["1d"] and ["1y"], and the command line
    falls back to the same values: with the symbol alone, or the symbol
    and the interval, or nothing at all, the program is the call with
    the missing parameters omitted, followed by [json.dumps] and the
    [print]. *)
Theorem defaults_coincide (script symbol interval : string) :
  (get_stock_data symbol None None : prog Response) =
    get_stock_data symbol (Some "1d") (Some "1y") ∧
  (main dumps [script; symbol] : prog ()) =
    (get_stock_data symbol None None
       ≫= λ data, json_dumps dumps data ≫= print) ∧
  (main dumps [script; symbol; interval] : prog ()) =
    (get_stock_data symbol (Some interval) None
       ≫= λ data, json_dumps dumps data ≫= print) ∧
  (main dumps [script] : prog ()) =
    (get_stock_data "2330.TW" None None
       ≫= λ data, json_dumps dumps data ≫= print).
Proof. repeat split; reflexivity. Qed.

(** ** Endpoint, argument positions, return value *)

Lemma log_get_stock_data symbol interval range (w : World) :
  calls (run cap (get_stock_data symbol interval range) w).2 =
    (calls w ++ outbound cap (get_stock_data symbol interval range) w)%list ∧
  stdout (run cap (get_stock_data symbol interval range) w).2 = stdout w.
Proof.
  rewrite outbound_get_stock_data, run_get_stock_data.
  destruct (cap_new cap (ext w)) as [[e|client] x]; simpl;
    [by rewrite app_nil_r|].
  by destruct (cap_call cap client endpoint _ x) as [o x'].
Qed.

(** X1.  Every outbound call, from the function or from the program and
    whatever the inputs, names the endpoint
    ["YahooFinance/get_stock_chart"]. *)
Theorem every_call_names_the_chart_endpoint
    (symbol : string) (interval range : option string)
    (argv : list string) (w : World) :
  Forall (λ c, call_name c = "YahooFinance/get_stock_chart")
         (outbound cap (get_stock_data symbol interval range) w) ∧
  Forall (λ c, call_name c = "YahooFinance/get_stock_chart")
         (outbound cap (main dumps argv) w).
Proof.
  rewrite outbound_main, !outbound_get_stock_data.
  destruct (cap_new cap (ext w)) as [[e|client] x]; simpl;
    split; by repeat constructor.
Qed.

(** X2.  For a command line of any length, each of the three fields is
    the argument at its position when [sys.argv] is long enough to hold
    one, and the fallback otherwise: [sys.argv[1]] or ["2330.TW"],
    [sys.argv[2]] or ["1d"], [sys.argv[3]] or ["1y"]. *)
Theorem main_query_by_position (argv : list string) (w : World) :
  Forall (λ q : query,
            q !! "symbol" = Some (PyStr (default "2330.TW" (argv !! 1%nat))) ∧
            q !! "interval" = Some (PyStr (default "1d" (argv !! 2%nat))) ∧
            q !! "range" = Some (PyStr (default "1y" (argv !! 3%nat))))
         (queries cap (main dumps argv) w) ∧
  length (queries cap (main dumps argv) w) =
    (if client_ok cap w then 1%nat else 0%nat).
Proof.
  split; [|apply length_queries_main].
  rewrite queries_main. destruct (client_ok cap w); [|constructor].
  repeat constructor; apply spec_query_lookups.
Qed.

Lemma cli_arg_window (argv argv' : list string) (j : nat) (d : string) :
  take 3 (drop 1 argv) = take 3 (drop 1 argv') → (j < 3)%nat →
  cli_arg argv (S j) d = cli_arg argv' (S j) d.
Proof.
  intros H Hj. unfold cli_arg.
  change (S j) with (1 + j)%nat. rewrite <- !lookup_drop.
  rewrite <- (lookup_take_lt (drop 1 argv) 3 j Hj).
  rewrite <- (lookup_take_lt (drop 1 argv') 3 j Hj).
  by rewrite H.
Qed.

(** X3.  The program reads [sys.argv[1]], [sys.argv[2]] and
    [sys.argv[3]] and nothing else: two command lines that agree on these
    three positions give the same program, whatever the script path and
    whatever follows the third argument (an empty [sys.argv] included). *)
Theorem main_reads_three_arguments_only (argv argv' : list string) :
  take 3 (drop 1 argv) = take 3 (drop 1 argv') →
  (main dumps argv : prog ()) = main dumps argv'.
Proof.
  intros H. rewrite !main_eq.
  rewrite (cli_arg_window argv argv' 0 _ H), (cli_arg_window argv argv' 1 _ H),
    (cli_arg_window argv argv' 2 _ H) by lia.
  reflexivity.
Qed.

(** X4.  [get_stock_data] hands back what [call_api] gave it and writes
    nothing.  When a call was made, the result of the function is the
    outcome of that call, a response or an exception, as it is; when none
    was made, the result is the exception of [ApiClient()].  In both
    cases standard output is untouched. *)
Theorem get_stock_data_returns_the_call_outcome
    (symbol : string) (interval range : option string) (w : World) :
  match outbound cap (get_stock_data symbol interval range) w with
  | [] =>
      match (cap_new cap (ext w)).1 with
      | inl e =>
          (run cap (get_stock_data symbol interval range) w).1 = inl (External e)
      | inr _ => False
      end
  | [c] =>
      (run cap (get_stock_data symbol interval range) w).1 =
      match call_outcome c with
      | inr response => inr response
      | inl e => inl (External e)
      end
  | _ => False
  end ∧
  printed cap (get_stock_data symbol interval range) w = [] ∧
  stdout (run cap (get_stock_data symbol interval range) w).2 = stdout w.
Proof.
  unfold printed.
  rewrite (proj2 (log_get_stock_data symbol interval range w)), drop_all.
  split; [|done].
  rewrite outbound_get_stock_data, result_get_stock_data.
  destruct (cap_new cap (ext w)) as [[e|client] x]; simpl; [done|].
  by destruct (cap_call cap client endpoint _ x) as [[e|r] x'].
Qed.

(** X5.  The two optional parameters fall back independently.  Whether
    [interval] and [range] are each given or omitted, the query carries
    the symbol as passed, the interval given or ["1d"], and the range
    given or ["1y"]; giving one does not affect the other. *)
Theorem get_stock_data_parameters_fall_back_independently
    (symbol : string) (interval range : option string) (w : World) :
  Forall (λ q : query,
            q !! "symbol" = Some (PyStr symbol) ∧
            q !! "interval" = Some (PyStr (default "1d" interval)) ∧
            q !! "range" = Some (PyStr (default "1y" range)))
         (queries cap (get_stock_data symbol interval range) w) ∧
  length (queries cap (get_stock_data symbol interval range) w) =
    (if client_ok cap w then 1%nat else 0%nat).
Proof.
  split; [|apply length_queries_get_stock_data].
  rewrite queries_get_stock_data. destruct (client_ok cap w); [|constructor].
  repeat constructor; apply spec_query_lookups.
Qed.

(** The log only grows: a run appends its calls to those made before. *)
Lemma calls_run {A} (p : prog A) (w : World) :
  calls (run cap p w).2 = (calls w ++ outbound cap p w)%list.
Proof.
  unfold outbound. revert w.
  induction p as [a|f|X e k IH]; intros w; simpl;
    [by rewrite drop_all, app_nil_r..|].
  assert (∃ l, calls (handle cap e w).2 = (calls w ++ l)%list) as [l Hl].
  { destruct e as [|client name q|line]; simpl.
    - destruct (cap_new cap (ext w)). exists []. simpl. by rewrite app_nil_r.
    - destruct (cap_call cap client name q (ext w)). by eexists.
    - exists []. simpl. by rewrite app_nil_r. }
  destruct (handle cap e w) as [[f|x] w']; simpl in *.
  - by rewrite Hl, drop_app_length.
  - by rewrite (IH x w'), Hl, <- !app_assoc, drop_app_length.
Qed.

(** The calls of a sequence are the calls of its parts, in order. *)
Lemma outbound_bind {A B} (p : prog A) (f : A → prog B) (w : World) :
  outbound cap (p ≫= f) w =
  match (run cap p w).1 with
  | inr a => (outbound cap p w ++ outbound cap (f a) (run cap p w).2)%list
  | inl _ => outbound cap p w
  end.
Proof.
  unfold outbound at 1. rewrite run_bind.
  pose proof (calls_run p w) as Hp.
  destruct (run cap p w) as [[e|a] w1] eqn:E; simpl in *.
  - by rewrite Hp, drop_app_length.
  - by rewrite calls_run, Hp, <- app_assoc, drop_app_length.
Qed.

(** X6.  Nothing is remembered between calls.  Calling [get_stock_data]
    again after a call that returned constructs a client again and sends
    a query again: the calls of the sequence are those of the first call
    followed by those of the second, run in the world the first one
    left.  After a call that raised, the second is never started. *)
Theorem get_stock_data_twice_calls_twice
    (symbol symbol' : string) (interval range interval' range' : option string)
    (w : World) :
  let first := get_stock_data symbol interval range : prog Response in
  let second := get_stock_data symbol' interval' range' : prog Response in
  let w1 := (run cap first w).2 in
  match (run cap first w).1 with
  | inr _ =>
      outbound cap (first ≫= λ _, second) w =
        (outbound cap first w ++ outbound cap second w1)%list ∧
      length (outbound cap (first ≫= λ _, second) w) =
        (if client_ok cap w1 then 2%nat else 1%nat)
  | inl _ =>
      outbound cap (first ≫= λ _, second) w = outbound cap first w
  end.
Proof.
  intros first second w1. subst first second w1.
  rewrite outbound_bind.
  pose proof (length_queries_get_stock_data symbol' interval' range'
                (run cap (get_stock_data symbol interval range) w).2) as Hlen.
  unfold queries in Hlen. rewrite length_fmap in Hlen.
  assert (match (run cap (get_stock_data symbol interval range) w).1 with
          | inr _ =>
              length (outbound cap (get_stock_data symbol interval range) w)
              = 1%nat
          | inl _ => True
          end) as Hone.
  { rewrite outbound_get_stock_data, result_get_stock_data.
    destruct (cap_new cap (ext w)) as [[e|client] x]; simpl; [done|].
    by destruct (cap_call cap client endpoint _ x) as [[e|r] x']. }
  destruct (run cap (get_stock_data symbol interval range) w).1
    as [f|response]; [done|].
  split; [done|]. rewrite length_app, Hone, Hlen.
  by destruct (client_ok cap _).
Qed.

(** ** The order of events *)

Lemma steps_inv {A} (c c' : config A) :
  steps cap c c' → c' = c ∨ ∃ c1, step cap c = Some c1 ∧ steps cap c1 c'.
Proof. intros H. inversion H; subst; eauto. Qed.

(** X7.  The program prints only once the response is there, and the
    [print] is its last action.  In every state it can reach, either
    nothing has been written yet, or the one call has returned a
    response [r], the one line written is the text [json.dumps] gave for
    [r], and the program has finished normally. *)
Theorem main_prints_only_after_the_response (argv : list string) (w : World)
    (c : config ()) :
  steps cap (main dumps argv, w) c →
  stdout c.2 = stdout w ∨
  ∃ r text,
    call_outcome <$> drop (length (calls w)) (calls c.2) = [inr r] ∧
    dumps r = inr text ∧
    stdout c.2 = (stdout w ++ [text])%list ∧
    c.1 = Ret ().
Proof.
  rewrite main_eq. unfold get_stock_data. cbn.
  intros H.
  apply steps_inv in H as [->|(c1 & H1 & H)]; [by left|].
  unfold step in H1. cbn in H1.
  destruct (cap_new cap (ext w)) as [[e|client] x]; cbn in H1;
    injection H1 as <-.
  { apply steps_inv in H as [->|(c2 & H2 & _)]; [by left|done]. }
  apply steps_inv in H as [->|(c2 & H2 & H)]; [by left|].
  unfold step in H2. cbn in H2.
  destruct (cap_call cap client _ _ x) as [[e|r] x']; cbn in H2;
    injection H2 as <-.
  { apply steps_inv in H as [->|(c3 & H3 & _)]; [by left|done]. }
  unfold json_dumps in H. destruct (dumps r) as [e|text] eqn:Hd; cbn in H.
  { apply steps_inv in H as [->|(c3 & H3 & _)]; [by left|done]. }
  apply steps_inv in H as [->|(c3 & H3 & H)]; [by left|].
  unfold step in H3. cbn in H3. injection H3 as <-.
  apply steps_inv in H as [->|(c4 & H4 & _)]; [|done].
  right. exists r, text. cbn. by rewrite drop_app_length.
Qed.

End FetcherFacts.

(** ** Determinism *)

(** C10.  [get_stock_data] is a function of its three inputs and of the
    client's answers alone.  Take two runs on the same symbol, interval
    and range, against clients and worlds that may differ in everything
    (outside state, earlier calls, earlier output) except the answers
    they give: the queries sent are the same, each with exactly the five
    keys, and the results are equal. *)
Theorem get_stock_data_deterministic {Client Response ExtFailure Ext : Type}
    (cap1 cap2 : capability (Client:=Client) (Response:=Response)
                            (ExtFailure:=ExtFailure) (Ext:=Ext))
    (w1 w2 : World (Response:=Response) (ExtFailure:=ExtFailure) (Ext:=Ext))
    (symbol : string) (interval range : option string) :
  (cap_new cap1 (ext w1)).1 = (cap_new cap2 (ext w2)).1 →
  (∀ client name q,
     (cap_call cap1 client name q (cap_new cap1 (ext w1)).2).1 =
     (cap_call cap2 client name q (cap_new cap2 (ext w2)).2).1) →
  (run cap1 (get_stock_data symbol interval range) w1).1 =
    (run cap2 (get_stock_data symbol interval range) w2).1 ∧
  queries cap1 (get_stock_data symbol interval range) w1 =
    queries cap2 (get_stock_data symbol interval range) w2 ∧
  Forall (λ q : query, dom q = query_keys)
         (queries cap1 (get_stock_data symbol interval range) w1).
Proof.
  intros Hnew Hcall. rewrite !result_get_stock_data, !queries_get_stock_data.
  unfold client_ok.
  destruct (cap_new cap1 (ext w1)) as [o1 x1], (cap_new cap2 (ext w2)) as [o2 x2].
  simpl in *. subst o2. destruct o1 as [e|client].
  - by repeat split.
  - rewrite Hcall. repeat split. constructor; [apply spec_query_dom|constructor].
Qed.

(** * The script on the stand-in client *)

Example run_three_arguments :
  run Stub.provider (main Stub.dumps [Stub.script; "0050.TW"; "1wk"; "5y"]) Stub.fresh =
  (inr (),
   mkWorld 1%nat
     [Call endpoint (spec_query "0050.TW" "1wk" "5y") (inr Stub.chart)]
     [Stub.text_of Stub.chart]).
Proof. by vm_compute. Qed.

(** The line printed for the canned chart reads back as the chart. *)
Example chart_round_trip :
  Stub.loads <$> printed Stub.provider
      (main Stub.dumps [Stub.script; "0050.TW"; "1wk"; "5y"]) Stub.fresh
    = [Some Stub.chart].
Proof. by vm_compute. Qed.

(** A response that [json.dumps] refuses ends the program after the
    call, with the serializer's exception and no output. *)
Example run_unserializable :
  run (Stub.serving Stub.chart_with_set) (main Stub.dumps [Stub.script]) Stub.fresh =
  (inl (Serializer "Object of type set is not JSON serializable"),
   mkWorld 1%nat
     [Call endpoint (spec_query "2330.TW" "1d" "1y") (inr Stub.chart_with_set)]
     []).
Proof. by vm_compute. Qed.

(** An interval outside the documented set reaches the provider as it
    is; the rejection is the provider's. *)
Example run_unknown_interval :
  run Stub.provider (get_stock_data "2330.TW" (Some "3d") None) Stub.fresh =
  (inl (External "invalid interval"),
   mkWorld 1%nat
     [Call endpoint (spec_query "2330.TW" "3d" "1y") (inl "invalid interval")]
     []).
Proof. by vm_compute. Qed.

Example run_offline :
  run Stub.offline (main Stub.dumps [Stub.script]) Stub.fresh =
  (inl (External "no credentials"), Stub.fresh).
Proof. by vm_compute. Qed.

(** Arguments past the third are ignored. *)
Example run_four_arguments :
  queries Stub.provider (main Stub.dumps [Stub.script; "2317.TW"; "1mo"; "max"; "x"])
          Stub.fresh =
  [spec_query "2317.TW" "1mo" "max"].
Proof. by vm_compute. Qed.



Lemma main_at_most_one_outbound_call_witness :
  steps Stub.provider (main Stub.dumps [Stub.script], Stub.fresh) Stub.after_call ∧
  (length (calls Stub.after_call.2) ≤ length (calls Stub.fresh) + 1)%nat ∧
  steps Stub.provider Stub.after_call
    (halt (run Stub.provider (main Stub.dumps [Stub.script]) Stub.fresh).1,
     (run Stub.provider (main Stub.dumps [Stub.script]) Stub.fresh).2) ∧
  length (outbound Stub.provider (main Stub.dumps [Stub.script]) Stub.fresh) =
    (if client_ok Stub.provider Stub.fresh then 1%nat else 0%nat).
Proof.
  assert (steps Stub.provider (main Stub.dumps [Stub.script], Stub.fresh) Stub.after_call)
    as H.
  { eapply rtc_l; [reflexivity|]. eapply rtc_l; [reflexivity|].
    vm_compute. apply rtc_refl. }
  split; [exact H|].
  exact (main_at_most_one_outbound_call Stub.dumps Stub.provider [Stub.script]
           Stub.fresh Stub.after_call H).
Defined.

Lemma get_stock_data_deterministic_witness :
  (cap_new Stub.provider (ext Stub.fresh)).1 = (cap_new Stub.provider (ext Stub.busy)).1 ∧
  (∀ client name q,
     (cap_call Stub.provider client name q (cap_new Stub.provider (ext Stub.fresh)).2).1 =
     (cap_call Stub.provider client name q (cap_new Stub.provider (ext Stub.busy)).2).1) ∧
  (run Stub.provider (get_stock_data "2330.TW" (Some "1wk") None) Stub.fresh).1 =
    (run Stub.provider (get_stock_data "2330.TW" (Some "1wk") None) Stub.busy).1 ∧
  queries Stub.provider (get_stock_data "2330.TW" (Some "1wk") None) Stub.fresh =
    queries Stub.provider (get_stock_data "2330.TW" (Some "1wk") None) Stub.busy ∧
  Forall (λ q : query, dom q = query_keys)
         (queries Stub.provider (get_stock_data "2330.TW" (Some "1wk") None) Stub.fresh).
Proof.
  assert ((cap_new Stub.provider (ext Stub.fresh)).1 =
          (cap_new Stub.provider (ext Stub.busy)).1) as H1 by reflexivity.
  assert (∀ client name q,
     (cap_call Stub.provider client name q (cap_new Stub.provider (ext Stub.fresh)).2).1 =
     (cap_call Stub.provider client name q (cap_new Stub.provider (ext Stub.busy)).2).1)
    as H2 by (intros; reflexivity).
  split; [exact H1|split; [exact H2|]].
  exact (get_stock_data_deterministic Stub.provider Stub.provider Stub.fresh Stub.busy
           "2330.TW" (Some "1wk") None H1 H2).
Defined.

Lemma main_reads_three_arguments_only_witness :
  take 3 (drop 1 ["a.py"; "0050.TW"; "1wk"; "5y"; "--verbose"]) =
    take 3 (drop 1 ["b.py"; "0050.TW"; "1wk"; "5y"]) ∧
  (main Stub.dumps ["a.py"; "0050.TW"; "1wk"; "5y"; "--verbose"]
     : prog (Client:=Stub.client) (ExtFailure:=Stub.exn) ()) =
    main Stub.dumps ["b.py"; "0050.TW"; "1wk"; "5y"].
Proof.
  assert (take 3 (drop 1 ["a.py"; "0050.TW"; "1wk"; "5y"; "--verbose"]) =
          take 3 (drop 1 ["b.py"; "0050.TW"; "1wk"; "5y"])) as H by reflexivity.
  split; [exact H|].
  exact (main_reads_three_arguments_only Stub.dumps
           ["a.py"; "0050.TW"; "1wk"; "5y"; "--verbose"]
           ["b.py"; "0050.TW"; "1wk"; "5y"] H).
Defined.

Lemma main_prints_only_after_the_response_witness :
  steps Stub.provider (main Stub.dumps [Stub.script], Stub.fresh) Stub.after_call ∧
  (stdout Stub.after_call.2 = stdout Stub.fresh ∨
   ∃ r text,
     call_outcome <$> drop (length (calls Stub.fresh)) (calls Stub.after_call.2)
       = [inr r] ∧
     Stub.dumps r = inr text ∧
     stdout Stub.after_call.2 = (stdout Stub.fresh ++ [text])%list ∧
     Stub.after_call.1 = Ret ()).
Proof.
  assert (steps Stub.provider (main Stub.dumps [Stub.script], Stub.fresh)
            Stub.after_call) as H.
  { eapply rtc_l; [reflexivity|]. eapply rtc_l; [reflexivity|].
    vm_compute. apply rtc_refl. }
  split; [exact H|].
  exact (main_prints_only_after_the_response Stub.dumps Stub.provider
           [Stub.script] Stub.fresh Stub.after_call H).
Defined.
